(** * gocog: the test-file script [testfiles/makefile.py]

    The script builds a bounding box, fills a 512 x 512 numpy array with four
    quadrant labels, asks the [raster] module for an affine transform and
    hands everything to [raster.saveToCOG].  The [raster] module is not part
    of the sources at hand, so the script is modelled over an arbitrary
    implementation of its two entry points. *)

From Stdlib Require Import ZArith String List Lia.
From stdpp Require Import gmap strings list fin_maps.

Local Open Scope string_scope.
Local Open Scope Z_scope.

(** ** The part of numpy the script uses *)

Module Numpy.

(** A two-dimensional array, as its list of rows.  [np.zeros] makes float64
    cells; the script only ever stores the integers 0..4 in them, which
    float64 holds exactly, so a cell is modelled by its integer value. *)
Abbreviation ndarray := (list (list Z)).

(** A slice [start:stop]; a bound left out in the source is [None].  The
    script never gives a step. *)
Record slice := Slice { start : option Z; stop : option Z }.

(** What [slice.indices(len)] does to one given bound when the step is 1:
    a negative bound counts from the end, and everything is clipped to
    [0, len]. *)
Definition clip (len b : Z) : Z :=
  if b <? 0 then Z.max (b + len) 0 else Z.min b len.

Definition indices (s : slice) (len : Z) : Z * Z :=
  (from_option (clip len) 0 (start s), from_option (clip len) len (stop s)).

(** Is index [i] inside the half-open range [b]? *)
Definition within (b : Z * Z) (i : Z) : bool :=
  (b.1 <=? i) && (i <? b.2).

(** [np.zeros((rows, cols))]; numpy raises ValueError on a negative
    dimension, which is [None] here. *)
Definition zeros (shape : Z * Z) : option ndarray :=
  let '(rows, cols) := shape in
  if (rows <? 0) || (cols <? 0) then None
  else Some (replicate (Z.to_nat rows) (replicate (Z.to_nat cols) 0)).

(** A map that also passes each element's index, counted from [k]. *)
Fixpoint map_indexed {A B} (f : Z → A → B) (k : Z) (l : list A) : list B :=
  match l with
  | [] => []
  | x :: l' => f k x :: map_indexed f (k + 1) l'
  end.

(** [a[rows, cols] = v] with two slices and a scalar: the slices are
    resolved against the lengths of the two axes, every cell in both
    ranges is overwritten, the others and the shape are kept. *)
Definition setitem (a : ndarray) (rows cols : slice) (v : Z) : ndarray :=
  let row_range := indices rows (Z.of_nat (length a)) in
  map_indexed
    (λ i row,
       let col_range := indices cols (Z.of_nat (length row)) in
       let in_rows := within row_range i in
       map_indexed
         (λ j x, if in_rows && within col_range j then v else x) 0 row)
    0 a.

(** [a[i, j]] for indices counted from 0; [None] outside the array. *)
Definition getitem (a : ndarray) (i j : nat) : option Z :=
  a !! i ≫= (.!! j).

(** [a.shape == (rows, cols)] *)
Definition has_shape (a : ndarray) (rows cols : nat) : Prop :=
  length a = rows ∧ Forall (λ row, length row = cols) a.

(** The cells a slice assignment writes in an array of the given shape. *)
Definition region (rows cols : slice) (nrows ncols i j : nat) : bool :=
  within (indices rows (Z.of_nat nrows)) (Z.of_nat i) &&
  within (indices cols (Z.of_nat ncols)) (Z.of_nat j).

End Numpy.

Import Numpy.

(** ** Python values, exceptions and the [raster] module *)

Module Python.

(** The values the script handles.  [Obj] is the type of the objects that
    only the [raster] module makes (the transform, the result of the
    save): the script never looks inside them. *)
Inductive value {Obj : Type} : Type :=
| VInt (n : Z)
| VStr (s : string)
| VDict (d : gmap string Z)
| VArray (a : ndarray)
| VObj (o : Obj).
Arguments value : clear implicits.

(** A dict display [{k1: v1, k2: v2, ...}]: the items are inserted from
    left to right, a later key replacing an equal earlier one. *)
Definition dict_display (items : list (string * Z)) : gmap string Z :=
  foldl (λ d kv, <[kv.1 := kv.2]> d) ∅ items.

(** What a statement of the script can raise: the interpreter's own errors
    and whatever a call into [raster] raises ([E] is the module's type of
    exceptions). *)
Inductive exn {E : Type} : Type :=
| NameError (name : string)
| TypeError
| ValueError
| Raised (e : E).
Arguments exn : clear implicits.

End Python.

Import Python.

(** The two functions the script imports with
    [from raster import saveToCOG, makeTransform].  Their code is not
    available; an implementation is any pair of functions that take their
    arguments and the state of the outside world (the file system) and either
    raise or return a value, leaving a new state of the world. *)
Record Raster : Type := {
  Obj : Type;
  Err : Type;
  World : Type;
  makeTransform :
    value Obj → value Obj → value Obj → World → (Err + value Obj) * World;
  saveToCOG :
    value Obj → value Obj → value Obj → value Obj → value Obj → value Obj →
    World → (Err + value Obj) * World
}.

(** ** The interpreter state and its monad *)

Section interpreter.

Variable L : Raster.

(** A call into [raster], with the arguments it was given:
    [makeTransform(width, height, bbox)] and
    [saveToCOG(path, data, crs, transform, noDataVal=..., mode=...)]. *)
Inductive call : Type :=
| CallMakeTransform (width height bbox : value (Obj L))
| CallSaveToCOG (path data crs transform noDataVal mode : value (Obj L)).

(** The module's global variables, the outside world, the calls made into
    [raster] so far (oldest first) and the source lines of the statements
    started so far (oldest first). *)
Record state : Type := State {
  globals : gmap string (value (Obj L));
  world : World L;
  calls : list call;
  executed : list nat
}.

(** A computation either raises or returns, and leaves a state either
    way. *)
Definition M (A : Type) : Type := state → (exn (Err L) + A) * state.

Definition ret {A} (a : A) : M A := λ σ, (inr a, σ).

Definition bind {A B} (m : M A) (k : A → M B) : M B :=
  λ σ, match m σ with
       | (inr a, σ') => k a σ'
       | (inl e, σ') => (inl e, σ')
       end.

Definition raise {A} (e : exn (Err L)) : M A := λ σ, (inl e, σ).

(** Reading a global variable; an unbound name raises NameError. *)
Definition load (name : string) : M (value (Obj L)) :=
  λ σ, match globals σ !! name with
       | Some v => (inr v, σ)
       | None => (inl (NameError name), σ)
       end.

(** [name = v] *)
Definition store (name : string) (v : value (Obj L)) : M unit :=
  λ σ, (inr (), State (<[name := v]> (globals σ)) (world σ) (calls σ)
                      (executed σ)).

Definition started (line : nat) : M unit :=
  λ σ, (inr (), State (globals σ) (world σ) (calls σ) (executed σ ++ [line])).

(** [np.zeros(shape)] *)
Definition np_zeros (shape : Z * Z) : M (value (Obj L)) :=
  match zeros shape with
  | Some a => ret (VArray a)
  | None => raise ValueError
  end.

(** [name[rows, cols] = v].  The array has one reference only, the global
    [name], so its update in place is the update of that variable. *)
Definition store_subscript (name : string) (rows cols : slice) (v : Z) :
  M unit :=
  bind (load name) (λ target,
    match target with
    | VArray a => store name (VArray (setitem a rows cols v))
    | _ => raise TypeError
    end).

(** A call into [raster]: it is logged, it changes the world, and what it
    raises is raised by the statement that made the call. *)
Definition call_makeTransform (width height bbox : value (Obj L)) :
  M (value (Obj L)) :=
  λ σ, let '(r, w) := makeTransform L width height bbox (world σ) in
       let σ' := State (globals σ) w
                       (calls σ ++ [CallMakeTransform width height bbox])
                       (executed σ) in
       match r with
       | inr v => (inr v, σ')
       | inl e => (inl (Raised e), σ')
       end.

Definition call_saveToCOG (path data crs transform noDataVal mode :
                             value (Obj L)) : M (value (Obj L)) :=
  λ σ, let '(r, w) :=
         saveToCOG L path data crs transform noDataVal mode (world σ) in
       let σ' := State (globals σ) w
                       (calls σ ++ [CallSaveToCOG path data crs transform
                                                  noDataVal mode])
                       (executed σ) in
       match r with
       | inr v => (inr v, σ')
       | inl e => (inl (Raised e), σ')
       end.

(** A module body: its statements with their source lines, run from top to
    bottom until one raises. *)
Fixpoint run (body : list (nat * M unit)) : M unit :=
  match body with
  | [] => ret ()
  | (line, stmt) :: rest =>
      bind (started line) (λ _, bind stmt (λ _, run rest))
  end.

(** The state in which the module body starts.  The names bound by the two
    import statements are not script variables and are left out. *)
Definition initial (w : World L) : state := State ∅ w [] [].

End interpreter.

Arguments State {L}.
Arguments globals {L}.
Arguments world {L}.
Arguments calls {L}.
Arguments executed {L}.
Arguments CallMakeTransform {L}.
Arguments CallSaveToCOG {L}.
Arguments ret {L A}.
Arguments bind {L A B}.
Arguments raise {L A}.
Arguments load {L}.
Arguments store {L}.
Arguments started {L}.
Arguments np_zeros {L}.
Arguments store_subscript {L}.
Arguments call_makeTransform {L}.
Arguments call_saveToCOG {L}.
Arguments run {L}.
Arguments initial {L}.

Declare Scope script_scope.
Delimit Scope script_scope with script.
Notation "x <- m ;; k" := (bind m (λ x, k))
  (at level 100, m at next level, right associativity) : script_scope.

(** ** The script, line by line *)

Module Makefile.
Section body.

Variable L : Raster.
Local Open Scope script_scope.

(** bbox = {"latMin": 0, "lonMin": 0, "latMax": 10, "lonMax": 10} *)
Definition bbox_items : list (string * Z) :=
  [("latMin", 0); ("lonMin", 0); ("latMax", 10); ("lonMax", 10)].

Definition line8 : M L unit :=
  store "bbox" (VDict (dict_display bbox_items)).

(** data = np.zeros((512, 512)) *)
Definition line10 : M L unit :=
  a <- np_zeros (512, 512) ;; store "data" a.

(** data[:256, :256] = 1 *)
Definition line11 : M L unit :=
  store_subscript "data" (Slice None (Some 256)) (Slice None (Some 256)) 1.

(** data[256:, :256] = 2 *)
Definition line12 : M L unit :=
  store_subscript "data" (Slice (Some 256) None) (Slice None (Some 256)) 2.

(** data[256:, 256:] = 3 *)
Definition line13 : M L unit :=
  store_subscript "data" (Slice (Some 256) None) (Slice (Some 256) None) 3.

(** data[:256, 256:] = 4 *)
Definition line14 : M L unit :=
  store_subscript "data" (Slice None (Some 256)) (Slice (Some 256) None) 4.

(** transform = makeTransform(512, 512, bbox) *)
Definition line17 : M L unit :=
  bbox <- load "bbox" ;;
  transform <- call_makeTransform (VInt 512) (VInt 512) bbox ;;
  store "transform" transform.

(** cogFile = saveToCOG("testfile.tiff", data, "EPSG:4326", transform,
                        noDataVal=-9999, mode="direct") *)
Definition line19 : M L unit :=
  data <- load "data" ;;
  transform <- load "transform" ;;
  cogFile <- call_saveToCOG (VStr "testfile.tiff") data (VStr "EPSG:4326")
                            transform (VInt (-9999)) (VStr "direct") ;;
  store "cogFile" cogFile.

Definition script : list (nat * M L unit) :=
  [(8, line8); (10, line10); (11, line11); (12, line12); (13, line13);
   (14, line14); (17, line17); (19, line19)]%nat.

(** The same body with lines 11 to 14 replaced by the given subscript
    assignments to [data], to compare the orders in which the four
    quadrants can be written. *)
Definition subscript_line (p : nat * (slice * slice * Z)) :
  nat * M L unit :=
  let '(line, (rows, cols, v)) := p in
  (line, store_subscript "data" rows cols v).

Definition script_with (assignments : list (nat * (slice * slice * Z))) :
  list (nat * M L unit) :=
  [(8, line8); (10, line10)]%nat ++ map subscript_line assignments ++
  [(17, line17); (19, line19)]%nat.

End body.

(** Lines 11 to 14 as data: source line, row slice, column slice, value. *)
Definition quadrant_lines : list (nat * (slice * slice * Z)) :=
  [(11%nat, (Slice None (Some 256), Slice None (Some 256), 1));
   (12%nat, (Slice (Some 256) None, Slice None (Some 256), 2));
   (13%nat, (Slice (Some 256) None, Slice (Some 256) None, 3));
   (14%nat, (Slice None (Some 256), Slice (Some 256) None, 4))].

(** Subscript assignments applied to an array, first to last. *)
Definition assign_all (assignments : list (nat * (slice * slice * Z)))
  (a : ndarray) : ndarray :=
  foldl (λ a p, setitem a p.2.1.1 p.2.1.2 p.2.2) a assignments.

(** Does the assignment write cell (i, j) of a 512 x 512 array? *)
Definition writes (p : nat * (slice * slice * Z)) (i j : nat) : bool :=
  region p.2.1.1 p.2.1.2 512 512 i j.

(** The dict of line 8, the array of line 10 and the array after line 14. *)
Definition bbox : gmap string Z := dict_display bbox_items.

Definition zero_grid : ndarray := replicate 512 (replicate 512 0).

Definition quadrants : ndarray := assign_all quadrant_lines zero_grid.

End Makefile.

Import Makefile.

(** ** Observations on a run *)

Section observations.

Context {L : Raster}.

(** The array bound to [data], if there is one. *)
Definition data_of (σ : state L) : option ndarray :=
  match globals σ !! "data" with
  | Some (VArray a) => Some a
  | _ => None
  end.

Definition is_makeTransform (c : call L) : bool :=
  match c with CallMakeTransform _ _ _ => true | _ => false end.

Definition is_saveToCOG (c : call L) : bool :=
  match c with CallSaveToCOG _ _ _ _ _ _ => true | _ => false end.

(** The outcome of the two calls of lines 17 and 19 for a given world, as
    the script makes them: what the run raises or returns. *)
Definition calls_result (w : World L) : exn (Err L) + unit :=
  match makeTransform L (VInt 512) (VInt 512) (VDict bbox) w with
  | (inl e, _) => inl (Raised e)
  | (inr transform, w1) =>
      match saveToCOG L (VStr "testfile.tiff") (VArray quadrants)
              (VStr "EPSG:4326") transform (VInt (-9999)) (VStr "direct") w1
      with
      | (inl e, _) => inl (Raised e)
      | (inr _, _) => inr ()
      end
  end.

(** The state lines 17 and 19 leave when they start from globals [g],
    world [w] and executed lines [ex], with no call made yet. *)
Definition calls_state (g : gmap string (value (Obj L))) (w : World L)
  (ex : list nat) : state L :=
  let mt := CallMakeTransform (VInt 512) (VInt 512) (VDict bbox) in
  match makeTransform L (VInt 512) (VInt 512) (VDict bbox) w with
  | (inl e, w1) => State g w1 [mt] (ex ++ [17%nat])
  | (inr transform, w1) =>
      let sv := CallSaveToCOG (VStr "testfile.tiff") (VArray quadrants)
                  (VStr "EPSG:4326") transform (VInt (-9999)) (VStr "direct")
      in
      match saveToCOG L (VStr "testfile.tiff") (VArray quadrants)
              (VStr "EPSG:4326") transform (VInt (-9999)) (VStr "direct") w1
      with
      | (inl e, w2) =>
          State (<["transform" := transform]> g) w2 [mt; sv]
                (ex ++ [17%nat; 19%nat])
      | (inr cogFile, w2) =>
          State (<["cogFile" := cogFile]> (<["transform" := transform]> g))
                w2 [mt; sv] (ex ++ [17%nat; 19%nat])
      end
  end.

(** The globals after line 14. *)
Definition globals14 : gmap string (value (Obj L)) :=
  <["data" := VArray quadrants]> (<["bbox" := VDict bbox]> ∅).

End observations.

(** ** Stand-ins for [raster], to run the script on *)

Module Doubles.

(** The world is the list of paths written so far, newest first.  The
    stand-in for [makeTransform] raises when [transform_fails] is set and
    the one for [saveToCOG] when [save_fails] is set; otherwise they return
    an opaque object, the save after recording its path. *)
Definition raster (transform_fails save_fails : bool) : Raster := {|
  Obj := nat;
  Err := string;
  World := list string;
  makeTransform := λ width height bbox w,
    if transform_fails then (inl "bad bounding box", w)
    else (inr (VObj 1%nat), w);
  saveToCOG := λ path data crs transform noDataVal mode w,
    if save_fails then (inl "I/O failure", w)
    else (inr (VObj 2%nat),
          match path with VStr p => p :: w | _ => w end)
|}.

Definition working : Raster := raster false false.

End Doubles.



(** ** Facts about the numpy operations *)

Section numpy_facts.

Lemma zeros_nonneg (rows cols : Z) :
  0 ≤ rows → 0 ≤ cols →
  zeros (rows, cols) =
  Some (replicate (Z.to_nat rows) (replicate (Z.to_nat cols) 0)).
Proof.
  intros Hr Hc. unfold zeros.
  destruct (rows <? 0) eqn:Er; [apply Z.ltb_lt in Er; lia|].
  destruct (cols <? 0) eqn:Ec; [apply Z.ltb_lt in Ec; lia|].
  reflexivity.
Qed.

Lemma zeros_512 : zeros (512, 512) = Some zero_grid.
Proof. by rewrite zeros_nonneg. Qed.

Lemma map_indexed_length {A B} (f : Z → A → B) k l :
  length (map_indexed f k l) = length l.
Proof. revert k. induction l as [|x l IH]; intros k; simpl; [done|by rewrite IH]. Qed.

Lemma map_indexed_lookup {A B} (f : Z → A → B) k l (i : nat) :
  map_indexed f k l !! i = f (k + Z.of_nat i) <$> l !! i.
Proof.
  revert k i. induction l as [|x l IH]; intros k [|i]; simpl; try done.
  - by rewrite Z.add_0_r.
  - rewrite IH. by replace (k + 1 + Z.of_nat i) with (k + Z.pos (Pos.of_succ_nat i)) by lia.
Qed.

Lemma getitem_replicate (r c i j : nat) (x : Z) :
  (i < r)%nat → (j < c)%nat →
  getitem (replicate r (replicate c x)) i j = Some x.
Proof.
  intros Hi Hj. unfold getitem.
  rewrite (lookup_replicate_2 r (replicate c x) i Hi). simpl.
  by apply lookup_replicate_2.
Qed.

Lemma has_shape_replicate (r c : nat) (x : Z) :
  has_shape (replicate r (replicate c x)) r c.
Proof.
  split; [apply length_replicate|].
  apply Forall_replicate, length_replicate.
Qed.

Lemma has_shape_row (a : ndarray) r c i row :
  has_shape a r c → a !! i = Some row → length row = c.
Proof. intros [_ Hrows] Hrow. by eapply (proj1 (Forall_lookup _ _) Hrows). Qed.

Lemma getitem_Some_lt (a : ndarray) r c i j v :
  has_shape a r c → getitem a i j = Some v → (i < r)%nat ∧ (j < c)%nat.
Proof.
  intros Hs Hget. unfold getitem in Hget.
  destruct (a !! i) as [row|] eqn:E; simplify_eq/=.
  pose proof (has_shape_row _ _ _ _ _ Hs E) as Hc.
  apply lookup_lt_Some in E, Hget. destruct Hs as [Hlen _]. lia.
Qed.

Lemma setitem_length (a : ndarray) rs cs v :
  length (setitem a rs cs v) = length a.
Proof. unfold setitem. apply map_indexed_length. Qed.

Lemma setitem_lookup (a : ndarray) rs cs v (i : nat) :
  setitem a rs cs v !! i =
  (λ row,
     map_indexed
       (λ j x, if within (indices rs (Z.of_nat (length a))) (Z.of_nat i) &&
                  within (indices cs (Z.of_nat (length row))) j
               then v else x) 0 row) <$> a !! i.
Proof. unfold setitem. by rewrite map_indexed_lookup. Qed.

Lemma has_shape_setitem (a : ndarray) rs cs v r c :
  has_shape a r c → has_shape (setitem a rs cs v) r c.
Proof.
  intros Hs. split; [rewrite setitem_length; apply Hs|].
  apply Forall_lookup. intros i row Hrow.
  rewrite setitem_lookup in Hrow.
  destruct (a !! i) as [row0|] eqn:E; simplify_eq/=.
  rewrite map_indexed_length. by eapply has_shape_row.
Qed.

(** Reading a cell after a slice assignment, in an array of known shape. *)
Lemma getitem_setitem (a : ndarray) rs cs v (r c i j : nat) :
  has_shape a r c →
  getitem (setitem a rs cs v) i j =
  (λ x, if region rs cs r c i j then v else x) <$> getitem a i j.
Proof.
  intros Hs. unfold getitem, region.
  rewrite setitem_lookup.
  destruct (a !! i) as [row|] eqn:E; simpl; [|done].
  rewrite map_indexed_lookup.
  rewrite (has_shape_row _ _ _ _ _ Hs E). destruct Hs as [-> _].
  done.
Qed.

(** Two arrays of one shape with the same cells are the same array. *)
Lemma ndarray_eq (a b : ndarray) r c :
  has_shape a r c → has_shape b r c →
  (∀ i j, getitem a i j = getitem b i j) → a = b.
Proof.
  intros Ha Hb Hcells. apply list_eq. intros i.
  destruct (a !! i) as [ra|] eqn:Ea, (b !! i) as [rb|] eqn:Eb.
  - f_equal. apply list_eq. intros j.
    specialize (Hcells i j). unfold getitem in Hcells.
    by rewrite Ea, Eb in Hcells.
  - apply lookup_lt_Some in Ea. apply lookup_ge_None in Eb.
    destruct Ha as [Ha _], Hb as [Hb _]. lia.
  - apply lookup_lt_Some in Eb. apply lookup_ge_None in Ea.
    destruct Ha as [Ha _], Hb as [Hb _]. lia.
  - done.
Qed.

(** Slice assignments that write no common cell can be swapped. *)
Lemma setitem_comm (a : ndarray) r c rs1 cs1 v1 rs2 cs2 v2 :
  has_shape a r c →
  (∀ i j, region rs1 cs1 r c i j && region rs2 cs2 r c i j = false) →
  setitem (setitem a rs1 cs1 v1) rs2 cs2 v2 =
  setitem (setitem a rs2 cs2 v2) rs1 cs1 v1.
Proof.
  intros Hs Hdisj.
  apply (ndarray_eq _ _ r c); [by do 2 apply has_shape_setitem..|].
  intros i j.
  rewrite !(getitem_setitem _ _ _ _ r c)
    by first [done | by apply has_shape_setitem].
  specialize (Hdisj i j).
  destruct (getitem a i j) as [x|]; simpl; [|done].
  by destruct (region rs1 cs1 r c i j), (region rs2 cs2 r c i j).
Qed.

(** The two slices of the script along an axis of length 512. *)
Lemma within_upto_256 (i : nat) :
  within (indices (Slice None (Some 256)) (Z.of_nat 512)) (Z.of_nat i) =
  bool_decide (i < 256)%nat.
Proof.
  change (Z.of_nat 512) with 512.
  unfold within, indices, clip; simpl.
  case_bool_decide; lia.
Qed.

Lemma within_from_256 (i : nat) :
  within (indices (Slice (Some 256) None) (Z.of_nat 512)) (Z.of_nat i) =
  bool_decide (256 ≤ i < 512)%nat.
Proof.
  change (Z.of_nat 512) with 512.
  unfold within, indices, clip; simpl.
  case_bool_decide; lia.
Qed.

End numpy_facts.

(** ** Facts about the interpreter *)

(** Reduce the field accesses on explicit states, and nothing else. *)
Ltac fields := cbn [globals world calls executed app].

Section interpreter_facts.

Context {L : Raster}.
Implicit Types (σ : state L) (g : gmap string (value (Obj L))).
Implicit Types (w : World L) (ex : list nat).

Lemma run_cons line (stmt : M L unit) rest σ :
  run ((line, stmt) :: rest) σ =
  match stmt (State (globals σ) (world σ) (calls σ) (executed σ ++ [line]))
  with
  | (inr _, σ') => run rest σ'
  | (inl e, σ') => (inl e, σ')
  end.
Proof. reflexivity. Qed.

Lemma run_app (body1 body2 : list (nat * M L unit)) σ :
  run (body1 ++ body2) σ =
  match run body1 σ with
  | (inr _, σ') => run body2 σ'
  | (inl e, σ') => (inl e, σ')
  end.
Proof.
  revert σ. induction body1 as [|[line stmt] body1 IH]; intros σ; [done|].
  rewrite <- app_comm_cons, !run_cons.
  destruct (stmt _) as [[e|[]] σ']; [done|apply IH].
Qed.

Lemma store_subscript_array name rows cols v g w c ex (a : ndarray) :
  g !! name = Some (VArray a) →
  store_subscript name rows cols v (State g w c ex) =
  (inr (), State (<[name := VArray (setitem a rows cols v)]> g) w c ex).
Proof.
  intros Hg. unfold store_subscript, bind, load; simpl. by rewrite Hg.
Qed.

(** Lines 8 and 10 bind [bbox] and [data] and make no call. *)
Lemma run_line8 w :
  run [(8%nat, line8 L)] (initial w) =
  (inr (), State (<["bbox" := VDict bbox]> ∅) w [] [8%nat]).
Proof. reflexivity. Qed.

Lemma run_line10 g w c ex :
  run [(10%nat, line10 L)] (State g w c ex) =
  (inr (), State (<["data" := VArray zero_grid]> g) w c (ex ++ [10%nat])).
Proof.
  rewrite run_cons. unfold line10, bind, np_zeros. by rewrite zeros_512.
Qed.

(** Subscript assignments to [data] update the array and nothing else. *)
Lemma run_subscript_lines (l : list (nat * (slice * slice * Z))) g w c ex a :
  g !! "data" = Some (VArray a) →
  run (map (subscript_line L) l) (State g w c ex) =
  (inr (), State (<["data" := VArray (assign_all l a)]> g) w c
                 (ex ++ map fst l)).
Proof.
  revert g ex a.
  induction l as [|[line [[rows cols] v]] l IH]; intros g ex a Hg.
  - simpl. by rewrite insert_id, app_nil_r.
  - rewrite map_cons. unfold subscript_line at 1. rewrite run_cons.
    fields.
    rewrite (store_subscript_array _ _ _ _ _ _ _ _ a Hg).
    rewrite (IH _ _ (setitem a rows cols v)) by apply lookup_insert_eq.
    by rewrite insert_insert_eq, <- app_assoc.
Qed.

(** Lines 17 and 19, started with [bbox] and [data] bound as the script
    binds them. *)
Lemma run_calls g w ex :
  g !! "bbox" = Some (VDict bbox) →
  g !! "data" = Some (VArray quadrants) →
  run [(17%nat, line17 L); (19%nat, line19 L)] (State g w [] ex) =
  (calls_result w, calls_state g w ex).
Proof.
  intros Hb Hd. rewrite run_cons.
  unfold line17 at 1, bind, load, call_makeTransform, calls_result,
    calls_state; fields.
  rewrite Hb; fields.
  destruct (makeTransform L _ _ _ w) as [[e|t] w1]; [done|].
  unfold store; fields.
  rewrite run_cons.
  unfold line19, bind, load, call_saveToCOG; fields.
  rewrite lookup_insert_ne, Hd by done; fields.
  rewrite lookup_insert_eq; fields.
  destruct (saveToCOG L _ _ _ _ _ _ w1) as [[e|f] w2].
  - by rewrite <- app_assoc.
  - unfold store; simpl. by rewrite <- app_assoc.
Qed.

End interpreter_facts.

(** ** Facts about the quadrant grid and the run of the script *)

Ltac quadrant_cases :=
  rewrite ?within_upto_256, ?within_from_256;
  repeat case_bool_decide; simpl; try done; try lia.

Section script_facts.

Context {L : Raster}.

Lemma has_shape_zero_grid : has_shape zero_grid 512 512.
Proof. apply has_shape_replicate. Qed.

Lemma assign_all_shape l (a : ndarray) r c :
  has_shape a r c → has_shape (assign_all l a) r c.
Proof.
  revert a. induction l as [|p l IH]; intros a Ha; [done|].
  apply IH. by apply has_shape_setitem.
Qed.

Lemma quadrants_unfold : quadrants = assign_all quadrant_lines zero_grid.
Proof. reflexivity. Qed.

Lemma has_shape_quadrants : has_shape quadrants 512 512.
Proof. apply assign_all_shape, has_shape_zero_grid. Qed.

(** Every cell of the grid after line 14, by its row and column. *)
Lemma quadrants_cell (i j : nat) :
  (i < 512)%nat → (j < 512)%nat →
  getitem quadrants i j =
  Some (if bool_decide (i < 256)%nat
        then if bool_decide (j < 256)%nat then 1 else 4
        else if bool_decide (j < 256)%nat then 2 else 3).
Proof.
  intros Hi Hj.
  cbv [quadrants assign_all quadrant_lines foldl fst snd].
  rewrite !(getitem_setitem _ _ _ _ 512 512)
    by repeat first [apply has_shape_zero_grid | apply has_shape_setitem].
  unfold zero_grid. rewrite getitem_replicate by done.
  unfold region. simpl fmap. quadrant_cases.
Qed.

(** Two of the lines 11 to 14 are the same line or write no common cell. *)
Lemma quadrant_lines_apart p q :
  p ∈ quadrant_lines → q ∈ quadrant_lines →
  p = q ∨ ∀ i j, region p.2.1.1 p.2.1.2 512 512 i j &&
                 region q.2.1.1 q.2.1.2 512 512 i j = false.
Proof.
  unfold quadrant_lines. intros Hp Hq.
  repeat (apply elem_of_cons in Hp as [->|Hp]);
    try (by apply elem_of_nil in Hp);
    repeat (apply elem_of_cons in Hq as [->|Hq]);
    try (by apply elem_of_nil in Hq);
    try (by left);
    right; intros i j; unfold region; cbn [fst snd]; quadrant_cases.
Qed.

(** Assignments that pairwise write no common cell give the same array in
    every order. *)
Lemma assign_all_perm (l l' : list (nat * (slice * slice * Z))) r c :
  l ≡ₚ l' →
  (∀ p q, p ∈ l → q ∈ l →
          p = q ∨ ∀ i j, region p.2.1.1 p.2.1.2 r c i j &&
                         region q.2.1.1 q.2.1.2 r c i j = false) →
  ∀ a : ndarray, has_shape a r c → assign_all l a = assign_all l' a.
Proof.
  induction 1 as [|x l l' Hperm IH|x y l|l l' l'' Hperm1 IH1 Hperm2 IH2];
    intros Hapart a Ha.
  - done.
  - apply IH; [|by apply has_shape_setitem].
    intros p q Hp Hq. apply Hapart; by right.
  - unfold assign_all; simpl. f_equal.
    destruct (Hapart y x) as [->|Hyx]; [set_solver..|done|].
    by apply (setitem_comm _ r c).
  - rewrite IH1 by done. apply IH2; [|done].
    intros p q Hp Hq. apply Hapart; by rewrite Hperm1.
Qed.

Lemma script_unfold : script L = script_with L quadrant_lines.
Proof. reflexivity. Qed.

Lemma run_lines_8_to_14 (l : list (nat * (slice * slice * Z))) (w : World L) :
  run ([(8%nat, line8 L); (10%nat, line10 L)] ++ map (subscript_line L) l)
      (initial w) =
  (inr (), State (<["data" := VArray (assign_all l zero_grid)]>
                    (<["bbox" := VDict bbox]> ∅))
                 w [] ([8%nat; 10%nat] ++ map fst l)).
Proof.
  change [(8%nat, line8 L); (10%nat, line10 L)]
    with ([(8%nat, line8 L)] ++ [(10%nat, line10 L)])%list.
  rewrite !run_app, run_line8, run_line10.
  rewrite (run_subscript_lines _ _ _ _ _ zero_grid) by apply lookup_insert_eq.
  by rewrite insert_insert_eq.
Qed.

(** The run of the script, with lines 11 to 14 in any order. *)
Lemma run_script_with (l : list (nat * (slice * slice * Z))) (w : World L) :
  l ≡ₚ quadrant_lines →
  run (script_with L l) (initial w) =
  (calls_result w, calls_state globals14 w ([8%nat; 10%nat] ++ map fst l)).
Proof.
  intros Hperm. unfold script_with.
  rewrite app_assoc, run_app, run_lines_8_to_14.
  rewrite (assign_all_perm l quadrant_lines 512 512 Hperm);
    [|intros p q Hp Hq; apply quadrant_lines_apart; by rewrite <- Hperm
     |apply has_shape_zero_grid].
  rewrite <- quadrants_unfold.
  apply (run_calls (<["data" := VArray quadrants]> _)).
  - by rewrite lookup_insert_ne, lookup_insert_eq.
  - apply lookup_insert_eq.
Qed.

Lemma run_script (w : World L) :
  run (script L) (initial w) =
  (calls_result w,
   calls_state globals14 w [8; 10; 11; 12; 13; 14]%nat).
Proof. rewrite script_unfold. by rewrite run_script_with. Qed.

Lemma run_first_six (w : World L) :
  run (take 6 (script L)) (initial w) =
  (inr (), State globals14 w [] [8; 10; 11; 12; 13; 14]%nat).
Proof.
  change (take 6 (script L))
    with ([(8%nat, line8 L); (10%nat, line10 L)] ++
          map (subscript_line L) quadrant_lines)%list.
  apply run_lines_8_to_14.
Qed.

(** When both calls return, the script returns with all four variables
    bound. *)
Lemma run_returns (w w1 w2 : World L) (transform cogFile : value (Obj L)) :
  makeTransform L (VInt 512) (VInt 512) (VDict bbox) w = (inr transform, w1) →
  saveToCOG L (VStr "testfile.tiff") (VArray quadrants) (VStr "EPSG:4326")
    transform (VInt (-9999)) (VStr "direct") w1 = (inr cogFile, w2) →
  run (script L) (initial w) =
  (inr (),
   State (<["cogFile" := cogFile]> (<["transform" := transform]> globals14))
         w2
         [CallMakeTransform (VInt 512) (VInt 512) (VDict bbox);
          CallSaveToCOG (VStr "testfile.tiff") (VArray quadrants)
            (VStr "EPSG:4326") transform (VInt (-9999)) (VStr "direct")]
         [8; 10; 11; 12; 13; 14; 17; 19]%nat).
Proof.
  intros Hmt Hsave. rewrite run_script.
  unfold calls_result, calls_state. by rewrite Hmt, Hsave.
Qed.

Lemma run_first_one (w : World L) :
  run (take 1 (script L)) (initial w) =
  (inr (), State (<["bbox" := VDict bbox]> ∅) w [] [8%nat]).
Proof. reflexivity. Qed.

Lemma run_first_two (w : World L) :
  run (take 2 (script L)) (initial w) =
  (inr (), State (<["data" := VArray zero_grid]> (<["bbox" := VDict bbox]> ∅))
                 w [] [8; 10]%nat).
Proof.
  change (take 2 (script L))
    with ([(8%nat, line8 L); (10%nat, line10 L)] ++
          map (subscript_line L) [])%list.
  apply run_lines_8_to_14.
Qed.

Lemma data_of_globals14 (w : World L) c ex :
  data_of (State globals14 w c ex) = Some quadrants.
Proof. unfold data_of, globals14; fields. by rewrite lookup_insert_eq. Qed.

(** Lines 17 and 19 leave [data] alone. *)
Lemma data_of_calls_state (w : World L) ex :
  data_of (calls_state globals14 w ex) = Some quadrants.
Proof.
  unfold calls_state.
  destruct (makeTransform L _ _ _ w) as [[e|t] w1];
    [apply data_of_globals14|].
  destruct (saveToCOG L _ _ _ _ _ _ w1) as [[e|f] w2];
    unfold data_of, globals14; fields;
    rewrite !lookup_insert_ne by done; by rewrite lookup_insert_eq.
Qed.

(** The cells of the grid after line 14 hold 1, 2, 3 or 4. *)
Lemma quadrants_labels (i j : nat) (v : Z) :
  getitem quadrants i j = Some v → v = 1 ∨ v = 2 ∨ v = 3 ∨ v = 4.
Proof.
  intros Hv.
  destruct (getitem_Some_lt _ _ _ _ _ _ has_shape_quadrants Hv) as [Hi Hj].
  rewrite quadrants_cell in Hv by done.
  repeat case_bool_decide; simplify_eq; auto.
Qed.

End script_facts.

(** ** The definitions at work on small inputs *)

Example setitem_corner :
  setitem [[0; 0; 0]; [0; 0; 0]; [0; 0; 0]]
          (Slice None (Some 2)) (Slice (Some 1) None) 7
  = [[0; 7; 7]; [0; 7; 7]; [0; 0; 0]].
Proof. reflexivity. Qed.

Example setitem_negative_bounds :
  setitem [[0; 0; 0]; [0; 0; 0]; [0; 0; 0]]
          (Slice (Some (-1)) None) (Slice None (Some (-1))) 7
  = [[0; 0; 0]; [0; 0; 0]; [7; 7; 0]].
Proof. reflexivity. Qed.

Example setitem_clipped :
  setitem [[0; 0; 0]; [0; 0; 0]; [0; 0; 0]]
          (Slice (Some 1) (Some 10)) (Slice (Some (-10)) (Some 2)) 7
  = [[0; 0; 0]; [7; 7; 0]; [7; 7; 0]].
Proof. reflexivity. Qed.

Example setitem_empty_range :
  setitem [[0; 0]; [0; 0]] (Slice (Some 2) (Some 1)) (Slice None None) 7
  = [[0; 0]; [0; 0]].
Proof. reflexivity. Qed.

Example zeros_small : zeros (2, 3) = Some [[0; 0; 0]; [0; 0; 0]].
Proof. reflexivity. Qed.

Example zeros_negative : zeros (-1, 3) = None.
Proof. reflexivity. Qed.

Example dict_display_last_wins :
  dict_display [("a", 1); ("b", 2); ("a", 3)] !! "a" = Some 3.
Proof. reflexivity. Qed.

Example unbound_name_raises :
  (run [(1%nat, line11 Doubles.working)]
       (initial (L := Doubles.working) [])).1
  = inl (NameError "data").
Proof. reflexivity. Qed.

Example run_on_working_double :
  let r := run (script Doubles.working) (initial (L := Doubles.working) []) in
  r.1 = inr () ∧ world r.2 = ["testfile.tiff"] ∧
  executed r.2 = [8; 10; 11; 12; 13; 14; 17; 19]%nat.
Proof.
  cbv zeta.
  by rewrite (run_returns (L := Doubles.working) [] [] ["testfile.tiff"]
                (VObj 1%nat) (VObj 2%nat)).
Qed.

(** ** The grid *)

(** C1.  After lines 11 to 14 the global [data] is a 512 x 512 array cut into
    four 256 x 256 quadrants: the cell in row [i] and column [j] holds 1 when
    [i < 256] and [j < 256], 2 when [i >= 256] and [j < 256], 3 when
    [i >= 256] and [j >= 256], and 4 when [i < 256] and [j >= 256]. *)
Theorem quadrant_values (L : Raster) (w : World L) (i j : nat) :
  (i < 512)%nat → (j < 512)%nat →
  ∃ a : ndarray,
    data_of (run (take 6 (script L)) (initial w)).2 = Some a ∧
    has_shape a 512 512 ∧
    ((i < 256)%nat → (j < 256)%nat → getitem a i j = Some 1) ∧
    ((256 ≤ i)%nat → (j < 256)%nat → getitem a i j = Some 2) ∧
    ((256 ≤ i)%nat → (256 ≤ j)%nat → getitem a i j = Some 3) ∧
    ((i < 256)%nat → (256 ≤ j)%nat → getitem a i j = Some 4).
Proof.
  intros Hi Hj. exists quadrants.
  rewrite run_first_six. cbn [snd].
  split; [apply data_of_globals14|].
  split; [apply has_shape_quadrants|].
  rewrite quadrants_cell by done.
  repeat split; intros; repeat case_bool_decide; first [done | lia].
Qed.

Lemma quadrant_values_witness :
  ∃ a : ndarray,
    data_of (run (take 6 (script Doubles.working))
                 (initial (L := Doubles.working) [])).2 = Some a ∧
    getitem a 3 300 = Some 4 ∧ getitem a 300 3 = Some 2.
Proof.
  destruct (quadrant_values Doubles.working [] 3 300) as (a & Ha & _ & H);
    [lia..|].
  destruct (quadrant_values Doubles.working [] 300 3) as (a' & Ha' & _ & H');
    [lia..|].
  exists a. split; [exact Ha|]. split.
  - apply H; lia.
  - rewrite Ha in Ha'. injection Ha' as <-. apply H'; lia.
Defined.

(** C4, as the code has it.  The grid is all zero when line 10 has made it,
    and the four quadrant assignments overwrite every cell of it: after
    line 14 each cell holds one of 1, 2, 3, 4 and none holds 0. *)
Theorem zero_background_overwritten (L : Raster) (w : World L) (i j : nat) :
  (i < 512)%nat → (j < 512)%nat →
  ∃ before after : ndarray,
    data_of (run (take 2 (script L)) (initial w)).2 = Some before ∧
    getitem before i j = Some 0 ∧
    data_of (run (take 6 (script L)) (initial w)).2 = Some after ∧
    ∃ v, getitem after i j = Some v ∧ (v = 1 ∨ v = 2 ∨ v = 3 ∨ v = 4) ∧ v ≠ 0.
Proof.
  intros Hi Hj. exists zero_grid, quadrants.
  rewrite run_first_two, run_first_six. cbn [snd].
  split; [unfold data_of; fields; by rewrite lookup_insert_eq|].
  split; [by apply getitem_replicate|].
  split; [apply data_of_globals14|].
  destruct (getitem quadrants i j) as [v|] eqn:Hv.
  - exists v. split; [done|].
    pose proof (quadrants_labels _ _ _ Hv). split; [done|lia].
  - rewrite quadrants_cell in Hv by done. discriminate.
Qed.

Lemma zero_background_overwritten_witness :
  ∃ before after : ndarray,
    data_of (run (take 2 (script Doubles.working))
                 (initial (L := Doubles.working) [])).2 = Some before ∧
    getitem before 0 0 = Some 0 ∧
    data_of (run (take 6 (script Doubles.working))
                 (initial (L := Doubles.working) [])).2 = Some after ∧
    ∃ v, getitem after 0 0 = Some v ∧ (v = 1 ∨ v = 2 ∨ v = 3 ∨ v = 4) ∧ v ≠ 0.
Proof. apply (zero_background_overwritten Doubles.working [] 0 0); lia. Defined.

(** C4, as the claim has it, fails: there is no implementation of [raster]
    and no world for which some cell of the 512 x 512 grid still holds 0
    after line 14. *)
Lemma no_zero_cell_left :
  ¬ ∃ (L : Raster) (w : World L) (a : ndarray) (i j : nat),
      data_of (run (take 6 (script L)) (initial w)).2 = Some a ∧
      (i < 512)%nat ∧ (j < 512)%nat ∧ getitem a i j = Some 0.
Proof.
  intros (L & w & a & i & j & Ha & Hi & Hj & Hzero).
  rewrite run_first_six in Ha. cbn [snd] in Ha.
  rewrite data_of_globals14 in Ha. injection Ha as <-.
  apply quadrants_labels in Hzero. lia.
Qed.

(** C9.  Whatever call to [saveToCOG] the script makes, its data argument is
    a 512 x 512 array whose every cell holds 1, 2, 3 or 4, and its noDataVal
    argument is -9999, which no cell holds. *)
Theorem nodata_never_in_grid (L : Raster) (w : World L)
  (path data crs transform noDataVal mode : value (Obj L)) :
  CallSaveToCOG path data crs transform noDataVal mode
    ∈ calls (run (script L) (initial w)).2 →
  ∃ a : ndarray,
    data = VArray a ∧ noDataVal = VInt (-9999) ∧ has_shape a 512 512 ∧
    ∀ (i j : nat) (v : Z),
      getitem a i j = Some v →
      (v = 1 ∨ v = 2 ∨ v = 3 ∨ v = 4) ∧ VInt v ≠ noDataVal.
Proof.
  rewrite run_script. cbn [snd]. unfold calls_state.
  destruct (makeTransform L _ _ _ w) as [[e|t] w1]; fields.
  - intros Hin. apply list_elem_of_singleton in Hin. discriminate.
  - assert (CallSaveToCOG path data crs transform noDataVal mode
              ∈ [CallMakeTransform (VInt 512) (VInt 512) (VDict bbox);
                 CallSaveToCOG (L := L) (VStr "testfile.tiff") (VArray quadrants)
                   (VStr "EPSG:4326") t (VInt (-9999)) (VStr "direct")] →
            data = VArray quadrants ∧ noDataVal = VInt (-9999)) as Hargs.
    { intros Hin. apply elem_of_cons in Hin as [Hin|Hin]; [discriminate|].
      apply list_elem_of_singleton in Hin. by simplify_eq. }
    destruct (saveToCOG L _ _ _ _ _ _ w1) as [[e|f] w2]; fields;
      intros Hin; exists quadrants;
      destruct (Hargs Hin) as [-> ->];
      (split; [done|]); (split; [done|]);
      (split; [apply has_shape_quadrants|]);
      intros i j v Hv; apply quadrants_labels in Hv;
      (split; [done|]); intros [= ->]; lia.
Qed.

Lemma nodata_never_in_grid_witness :
  ∃ a : ndarray,
    VArray (Obj := Obj Doubles.working) quadrants = VArray a ∧
    VInt (Obj := Obj Doubles.working) (-9999) = VInt (-9999) ∧
    has_shape a 512 512 ∧
    ∀ (i j : nat) (v : Z),
      getitem a i j = Some v →
      (v = 1 ∨ v = 2 ∨ v = 3 ∨ v = 4) ∧
      VInt (Obj := Obj Doubles.working) v ≠ VInt (-9999).
Proof.
  apply (nodata_never_in_grid Doubles.working [] (VStr "testfile.tiff") _
           (VStr "EPSG:4326") (VObj 1%nat) _ (VStr "direct")).
  rewrite run_script. cbn [snd]. unfold calls_state. simpl. set_solver.
Defined.

(** ** The bounding box *)

(** C6.  The dict that line 8 binds to [bbox] has exactly the four keys
    latMin, lonMin, latMax and lonMax, with latMin = 0, lonMin = 0,
    latMax = 10 and lonMax = 10. *)
Theorem bbox_fields :
  dom bbox = ({["latMin"; "lonMin"; "latMax"; "lonMax"]} : gset string) ∧
  size bbox = 4%nat ∧
  bbox !! "latMin" = Some 0 ∧ bbox !! "lonMin" = Some 0 ∧
  bbox !! "latMax" = Some 10 ∧ bbox !! "lonMax" = Some 10 ∧
  ∀ (L : Raster) (w : World L),
    globals (run (take 1 (script L)) (initial w)).2 !! "bbox" =
    Some (VDict bbox).
Proof.
  assert (bbox = <["lonMax" := 10]> (<["latMax" := 10]> (<["lonMin" := 0]>
                   (<["latMin" := 0]> ∅)))) as Hbbox by reflexivity.
  repeat apply conj.
  - rewrite Hbbox, !dom_insert_L, dom_empty_L. set_solver.
  - rewrite Hbbox.
    rewrite !map_size_insert_None, map_size_empty; [done|..];
      by rewrite ?lookup_insert_ne by done.
  - rewrite Hbbox, !lookup_insert_ne by done. apply lookup_insert_eq.
  - rewrite Hbbox, !lookup_insert_ne by done. apply lookup_insert_eq.
  - rewrite Hbbox, !lookup_insert_ne by done. apply lookup_insert_eq.
  - rewrite Hbbox. apply lookup_insert_eq.
  - intros L w. rewrite run_first_one. cbn [snd globals].
    apply lookup_insert_eq.
Qed.

(** ** The calls into [raster] *)

(** C3.  In every run the script calls [makeTransform] exactly once, before
    any other call, with width 512 and height 512, which are the numbers of
    columns and rows of the array bound to [data], and with the dict bound to
    [bbox] as third argument. *)
Theorem makeTransform_call (L : Raster) (w : World L) :
  ∃ (a : ndarray) (rows cols : nat),
    data_of (run (take 6 (script L)) (initial w)).2 = Some a ∧
    has_shape a rows cols ∧
    globals (run (take 6 (script L)) (initial w)).2 !! "bbox"
      = Some (VDict bbox) ∧
    calls (run (take 6 (script L)) (initial w)).2 = [] ∧
    head (calls (run (script L) (initial w)).2) =
      Some (CallMakeTransform (VInt (Z.of_nat cols)) (VInt (Z.of_nat rows))
              (VDict bbox)) ∧
    List.filter is_makeTransform (calls (run (script L) (initial w)).2) =
      [CallMakeTransform (VInt 512) (VInt 512) (VDict bbox)] ∧
    Z.of_nat rows = 512 ∧ Z.of_nat cols = 512.
Proof.
  exists quadrants, 512%nat, 512%nat.
  rewrite run_first_six, run_script. cbn [snd].
  split; [apply data_of_globals14|].
  split; [apply has_shape_quadrants|].
  split; [unfold globals14; fields;
          by rewrite lookup_insert_ne, lookup_insert_eq|].
  split; [done|].
  unfold calls_state.
  destruct (makeTransform L _ _ _ w) as [[e|t] w1]; fields; [done|].
  by destruct (saveToCOG L _ _ _ _ _ _ w1) as [[e|f] w2].
Qed.

(** C2, as the code has it.  The script calls [saveToCOG] at most once:
    exactly once when the call to [makeTransform] returns, with the path
    testfile.tiff, the array bound to [data] after line 14, the CRS
    EPSG:4326, the value [makeTransform] returned, the no-data value -9999
    and the mode direct; and not at all when [makeTransform] raises.  (The
    last two arguments are passed by keyword in the source.) *)
Theorem saveToCOG_call (L : Raster) (w : World L) :
  ∃ a : ndarray,
    data_of (run (take 6 (script L)) (initial w)).2 = Some a ∧
    match makeTransform L (VInt 512) (VInt 512) (VDict bbox) w with
    | (inr transform, _) =>
        List.filter is_saveToCOG (calls (run (script L) (initial w)).2) =
        [CallSaveToCOG (VStr "testfile.tiff") (VArray a) (VStr "EPSG:4326")
           transform (VInt (-9999)) (VStr "direct")]
    | (inl _, _) =>
        List.filter is_saveToCOG (calls (run (script L) (initial w)).2) = []
    end.
Proof.
  exists quadrants.
  rewrite run_first_six, run_script. cbn [snd].
  split; [apply data_of_globals14|].
  unfold calls_state.
  destruct (makeTransform L _ _ _ w) as [[e|t] w1]; [done|].
  by destruct (saveToCOG L _ _ _ _ _ _ w1) as [[e|f] w2].
Qed.

(** C2, as the claim has it, fails: with an implementation of [raster]
    whose [makeTransform] raises, the script does not call [saveToCOG] once
    but never. *)
Lemma saveToCOG_never_reached :
  List.filter is_saveToCOG
    (calls (run (script (Doubles.raster true false))
                (initial (L := Doubles.raster true false) [])).2) = [] ∧
  length (List.filter is_saveToCOG
            (calls (run (script (Doubles.raster true false))
                        (initial (L := Doubles.raster true false) [])).2))
  ≠ 1%nat.
Proof.
  rewrite run_script. cbn [snd]. unfold calls_state. simpl.
  split; [done|discriminate].
Qed.

(** ** Errors *)

(** C5.  Whatever the implementation of [raster] does: when the call to
    [makeTransform] raises, the script raises that same exception and makes
    no further call; when it returns and the call to [saveToCOG] raises, the
    script raises that same exception; and an exception that leaves the
    script is always one of these two, never one of the script's own. *)
Theorem library_errors_propagate (L : Raster) (w : World L) :
  let result := (run (script L) (initial w)).1 in
  let made := calls (run (script L) (initial w)).2 in
  (∀ e w1,
     makeTransform L (VInt 512) (VInt 512) (VDict bbox) w = (inl e, w1) →
     result = inl (Raised e) ∧
     made = [CallMakeTransform (VInt 512) (VInt 512) (VDict bbox)]) ∧
  (∀ t w1 e w2,
     makeTransform L (VInt 512) (VInt 512) (VDict bbox) w = (inr t, w1) →
     saveToCOG L (VStr "testfile.tiff") (VArray quadrants) (VStr "EPSG:4326")
       t (VInt (-9999)) (VStr "direct") w1 = (inl e, w2) →
     result = inl (Raised e)) ∧
  (∀ x,
     result = inl x →
     ∃ e, x = Raised e ∧
          ((∃ w1, makeTransform L (VInt 512) (VInt 512) (VDict bbox) w
                  = (inl e, w1)) ∨
           (∃ t w1 w2,
              makeTransform L (VInt 512) (VInt 512) (VDict bbox) w
              = (inr t, w1) ∧
              saveToCOG L (VStr "testfile.tiff") (VArray quadrants)
                (VStr "EPSG:4326") t (VInt (-9999)) (VStr "direct") w1
              = (inl e, w2)))).
Proof.
  cbv zeta. rewrite run_script. cbn [fst snd].
  unfold calls_result, calls_state.
  destruct (makeTransform L _ _ _ w) as [[e0|t0] w0] eqn:Hmt.
  - repeat apply conj.
    + by intros e w1 [= -> ->].
    + intros t w1 e w2 [=].
    + intros x [= <-]. exists e0. split; [done|]. left. by exists w0.
  - destruct (saveToCOG L _ _ _ _ _ _ w0) as [[e1|f] w2'] eqn:Hsave.
    + repeat apply conj.
      * intros e w1 [=].
      * intros t w1 e w2 [= -> ->] Hsave'.
        rewrite Hsave in Hsave'. by injection Hsave' as -> _.
      * intros x [= <-]. exists e1. split; [done|]. right.
        by exists t0, w0, w2'.
    + repeat apply conj.
      * intros e w1 [=].
      * intros t w1 e w2 [= -> ->] Hsave'.
        rewrite Hsave in Hsave'. discriminate.
      * intros x [=].
Qed.

Lemma library_errors_propagate_witness :
  (run (script (Doubles.raster true false))
       (initial (L := Doubles.raster true false) [])).1
  = inl (Raised "bad bounding box") ∧
  (run (script (Doubles.raster false true))
       (initial (L := Doubles.raster false true) [])).1
  = inl (Raised "I/O failure").
Proof.
  split.
  - apply (proj1 (library_errors_propagate (Doubles.raster true false) [])
             "bad bounding box" []).
    reflexivity.
  - apply (proj1 (proj2 (library_errors_propagate
                           (Doubles.raster false true) []))
             (VObj 1%nat) [] "I/O failure" []); reflexivity.
Defined.

(** ** Control flow *)

(** C7.  The statements of the script are run one after the other in the
    order of the text, each at most once, whatever [raster] does: line 8
    binds the bounding box, line 10 an all-zero 512 x 512 grid, lines 11 to 14
    fill the quadrants without any call, line 17 calls [makeTransform] with
    the grid dimensions and the bounding box, and line 19, reached exactly
    when that call returns, calls [saveToCOG] last. *)
Theorem script_runs_top_to_bottom (L : Raster) (w : World L) :
  map fst (script L) = [8; 10; 11; 12; 13; 14; 17; 19]%nat ∧
  run (take 1 (script L)) (initial w) =
    (inr (), State (<["bbox" := VDict bbox]> ∅) w [] [8%nat]) ∧
  run (take 2 (script L)) (initial w) =
    (inr (), State (<["data" := VArray zero_grid]>
                      (<["bbox" := VDict bbox]> ∅)) w [] [8; 10]%nat) ∧
  has_shape zero_grid 512 512 ∧ Forall (Forall (eq 0)) zero_grid ∧
  run (take 6 (script L)) (initial w) =
    (inr (), State (<["data" := VArray quadrants]>
                      (<["bbox" := VDict bbox]> ∅)) w []
                   [8; 10; 11; 12; 13; 14]%nat) ∧
  match makeTransform L (VInt 512) (VInt 512) (VDict bbox) w with
  | (inl e, w1) =>
      run (script L) (initial w) =
      (inl (Raised e),
       State (<["data" := VArray quadrants]> (<["bbox" := VDict bbox]> ∅)) w1
             [CallMakeTransform (VInt 512) (VInt 512) (VDict bbox)]
             [8; 10; 11; 12; 13; 14; 17]%nat)
  | (inr transform, w1) =>
      executed (run (script L) (initial w)).2 =
        [8; 10; 11; 12; 13; 14; 17; 19]%nat ∧
      calls (run (script L) (initial w)).2 =
        [CallMakeTransform (VInt 512) (VInt 512) (VDict bbox);
         CallSaveToCOG (VStr "testfile.tiff") (VArray quadrants)
           (VStr "EPSG:4326") transform (VInt (-9999)) (VStr "direct")]
  end.
Proof.
  split; [reflexivity|].
  split; [apply run_first_one|].
  split; [apply run_first_two|].
  split; [apply has_shape_zero_grid|].
  split; [by do 2 apply Forall_replicate|].
  split; [apply run_first_six|].
  rewrite run_script. unfold calls_result, calls_state.
  destruct (makeTransform L _ _ _ w) as [[e|t] w1]; [done|]. cbn [snd].
  by destruct (saveToCOG L _ _ _ _ _ _ w1) as [[e|f] w2].
Qed.

(** ** The order of the quadrant assignments *)

(** C10.  Two different lines among 11 to 14 write no common cell of the
    grid; so the four assignments give the same array in each of their 24
    orders, and the script run with lines 11 to 14 in any of these orders
    ends with the same result, the same globals (the same grid bound to
    [data]), the same calls and the same world as the script itself. *)
Theorem quadrant_order_irrelevant :
  (∀ p q i j,
     p ∈ quadrant_lines → q ∈ quadrant_lines → p ≠ q →
     ¬ (writes p i j ∧ writes q i j)) ∧
  length (permutations quadrant_lines) = 24%nat ∧
  ∀ l : list (nat * (slice * slice * Z)),
    l ≡ₚ quadrant_lines →
    assign_all l zero_grid = assign_all quadrant_lines zero_grid ∧
    ∀ (L : Raster) (w : World L),
      (run (script_with L l) (initial w)).1 = (run (script L) (initial w)).1 ∧
      globals (run (script_with L l) (initial w)).2
        = globals (run (script L) (initial w)).2 ∧
      data_of (run (script_with L l) (initial w)).2 = Some quadrants ∧
      calls (run (script_with L l) (initial w)).2
        = calls (run (script L) (initial w)).2 ∧
      world (run (script_with L l) (initial w)).2
        = world (run (script L) (initial w)).2.
Proof.
  split; [|split; [reflexivity|]].
  - intros p q i j Hp Hq Hne [Hwp Hwq].
    destruct (quadrant_lines_apart p q Hp Hq) as [->|Hapart]; [done|].
    specialize (Hapart i j). unfold writes in Hwp, Hwq.
    destruct (region p.2.1.1 p.2.1.2 512 512 i j); [|done].
    by destruct (region q.2.1.1 q.2.1.2 512 512 i j).
  - intros l Hperm. split.
    + apply (assign_all_perm l quadrant_lines 512 512 Hperm);
        [|apply has_shape_zero_grid].
      intros p q Hp Hq. apply quadrant_lines_apart; by rewrite <- Hperm.
    + intros L w. rewrite run_script, (run_script_with l w Hperm).
      cbn [fst snd]. split; [done|].
      rewrite data_of_calls_state.
      unfold calls_state. destruct (makeTransform L _ _ _ w) as [[e|t] w1];
        [done|].
      by destruct (saveToCOG L _ _ _ _ _ _ w1) as [[e|f] w2].
Qed.

Lemma quadrant_order_irrelevant_witness :
  assign_all (rev quadrant_lines) zero_grid
  = assign_all quadrant_lines zero_grid ∧
  ¬ (writes (11%nat, (Slice None (Some 256), Slice None (Some 256), 1)) 5 7 ∧
     writes (12%nat, (Slice (Some 256) None, Slice None (Some 256), 2)) 5 7).
Proof.
  split.
  - apply (proj2 (proj2 quadrant_order_irrelevant) (rev quadrant_lines)).
    symmetry. apply Permutation_rev.
  - apply (proj1 quadrant_order_irrelevant); [set_solver..|discriminate].
Defined.


(** ** The run from any starting state *)

Section any_start.

Context {L : Raster}.
Implicit Types (g : gmap string (value (Obj L))) (w : World L).
Implicit Types (c : list (call L)) (ex : list nat).




End any_start.

(** ** The quadrant assignments on an array of any shape *)

Section any_shape.

Lemma within_upto_256_any (n i : nat) :
  within (indices (Slice None (Some 256)) (Z.of_nat n)) (Z.of_nat i) =
  bool_decide (i < 256 ∧ i < n)%nat.
Proof.
  unfold within, indices, clip; simpl.
  case_bool_decide; lia.
Qed.

Lemma within_from_256_any (n i : nat) :
  within (indices (Slice (Some 256) None) (Z.of_nat n)) (Z.of_nat i) =
  bool_decide (256 ≤ i < n)%nat.
Proof.
  unfold within, indices, clip; simpl.
  case_bool_decide; lia.
Qed.

Lemma getitem_is_Some (a : ndarray) (r c i j : nat) :
  has_shape a r c → (i < r)%nat → (j < c)%nat → is_Some (getitem a i j).
Proof.
  intros Hs Hi Hj. unfold getitem.
  destruct (lookup_lt_is_Some_2 a i) as [row Hrow]; [destruct Hs; lia|].
  rewrite Hrow. simpl. apply lookup_lt_is_Some_2.
  by rewrite (has_shape_row _ _ _ _ _ Hs Hrow).
Qed.

Lemma quadrant_lines_apart_any (r c : nat) p q :
  p ∈ quadrant_lines → q ∈ quadrant_lines →
  p = q ∨ ∀ i j, region p.2.1.1 p.2.1.2 r c i j &&
                 region q.2.1.1 q.2.1.2 r c i j = false.
Proof.
  unfold quadrant_lines. intros Hp Hq.
  repeat (apply elem_of_cons in Hp as [->|Hp]);
    try (by apply elem_of_nil in Hp);
    repeat (apply elem_of_cons in Hq as [->|Hq]);
    try (by apply elem_of_nil in Hq);
    try (by left);
    right; intros i j; unfold region; cbn [fst snd];
    rewrite ?within_upto_256_any, ?within_from_256_any;
    repeat case_bool_decide; simpl; try done; lia.
Qed.

End any_shape.

(** ** Further properties of the script *)






(** X4.  Lines 11 to 14 do not depend on the array being 512 x 512 or all
    zero: applied to an array of any shape and any contents they keep its
    shape and overwrite every cell, cell (i, j) ending as 1, 4, 2 or 3
    according to whether [i < 256] and whether [j < 256]; an array with at
    most 256 rows and columns ends all 1. *)
Theorem quadrants_of_any_array (a : ndarray) (r c i j : nat) :
  has_shape a r c → (i < r)%nat → (j < c)%nat →
  has_shape (assign_all quadrant_lines a) r c ∧
  getitem (assign_all quadrant_lines a) i j =
  Some (if bool_decide (i < 256)%nat
        then if bool_decide (j < 256)%nat then 1 else 4
        else if bool_decide (j < 256)%nat then 2 else 3).
Proof.
  intros Hs Hi Hj. split; [by apply assign_all_shape|].
  cbv [assign_all quadrant_lines foldl fst snd].
  rewrite !(getitem_setitem _ _ _ _ r c)
    by repeat first [exact Hs | apply has_shape_setitem].
  destruct (getitem_is_Some a r c i j Hs Hi Hj) as [x ->].
  unfold region. simpl fmap.
  rewrite !within_upto_256_any, !within_from_256_any.
  repeat case_bool_decide; simpl; first [done | lia].
Qed.

Lemma quadrants_of_any_array_witness :
  has_shape (assign_all quadrant_lines [[7; 8; 9]; [5; 5; 5]]) 2 3 ∧
  getitem (assign_all quadrant_lines [[7; 8; 9]; [5; 5; 5]]) 1 2 = Some 1.
Proof.
  apply (quadrants_of_any_array [[7; 8; 9]; [5; 5; 5]] 2 3 1 2);
    [split; [reflexivity|repeat constructor]|lia|lia].
Defined.

(** X5.  On an array of any shape, not only 512 x 512, the four quadrant
    assignments give the same array in every order. *)
Theorem any_array_order_irrelevant
  (l : list (nat * (slice * slice * Z))) (a : ndarray) (r c : nat) :
  l ≡ₚ quadrant_lines → has_shape a r c →
  assign_all l a = assign_all quadrant_lines a.
Proof.
  intros Hperm Hs. apply (assign_all_perm l quadrant_lines r c Hperm); [|done].
  intros p q Hp Hq. apply quadrant_lines_apart_any; by rewrite <- Hperm.
Qed.

Lemma any_array_order_irrelevant_witness :
  assign_all (rev quadrant_lines) [[7; 8; 9]; [5; 5; 5]]
  = assign_all quadrant_lines [[7; 8; 9]; [5; 5; 5]].
Proof.
  apply (any_array_order_irrelevant (rev quadrant_lines) _ 2 3).
  - symmetry. apply Permutation_rev.
  - split; [reflexivity|repeat constructor].
Defined.

(** X6.  The two slice forms of lines 11 to 14, [:k] and [k:], split an axis
    of any length at any [k], negative or beyond the end included: each
    index of the axis is selected by exactly one of them. *)
Theorem split_slices_complementary (k : Z) (n i : nat) :
  (i < n)%nat →
  within (indices (Slice None (Some k)) (Z.of_nat n)) (Z.of_nat i) =
  negb (within (indices (Slice (Some k) None) (Z.of_nat n)) (Z.of_nat i)).
Proof.
  intros Hi. unfold within, indices, clip; cbn [start stop from_option fst snd].
  destruct (k <? 0) eqn:Hk;
    [apply Z.ltb_lt in Hk|apply Z.ltb_ge in Hk];
    destruct (_ <=? Z.of_nat i) eqn:H1, (Z.of_nat i <? _) eqn:H2,
             (_ <=? Z.of_nat i) eqn:H3, (Z.of_nat i <? Z.of_nat n) eqn:H4;
    simpl; try done; lia.
Qed.

Lemma split_slices_complementary_witness :
  within (indices (Slice None (Some (-3))) (Z.of_nat 10)) (Z.of_nat 8) =
  negb (within (indices (Slice (Some (-3)) None) (Z.of_nat 10)) (Z.of_nat 8)).
Proof. apply (split_slices_complementary (-3) 10 8). lia. Defined.
